(** * huasuan: renting against buying, month by month

    A shallow embedding of [huasuan.py] and the properties of its cost
    tables and totals.

    Modelling decisions, fixed once for the whole development:

    - Python [float] values are exact rationals ([Q]); every operation the
      program applies to them ([+ - * /], [**] with a month count as the
      exponent, [min], [int()]) is closed on the rationals.  Rounding of
      binary floating point is not modelled there: what is proved of the
      payment, the schedule and the totals are orders, bounds and identities
      between the quantities, which hold of the floats up to rounding.
    - The rental and the tax table are specified entry by entry, and the
      last unit of an entry depends on rounding: [initCostOfRental] and
      [initPropertyTax] are embedded a second time over binary64 floats
      (module [Binary64]), where [int()] of an infinity raises
      [OverflowError] and of a NaN [ValueError].
    - Python [int] values are [Z], and an [int] that enters float
      arithmetic is the rational of the same value; month counts and month
      numbers, which the program only ever feeds to [range], to [**] and to
      list indexing, are [nat].
    - The two exceptions the program can raise are explicit: a true division
      by zero raises [ZeroDivisionError], a list index past the end raises
      [IndexError].
    - The four module-level lists are the fields of one [globals] record that
      every function threads; [print] appends to a fifth field. Only the
      numeric rows are recorded, as the integers that [%d] displays; banner
      lines are left out. *)

From Stdlib Require Import QArith Qpower Qround Qabs ZArith List Lia Lqa Bool.
From Stdlib Require Import Setoid Morphisms.
From Stdlib Require Import Floats.
Import ListNotations.

(** ** Python values and exceptions *)

Module Py.

Inductive exn : Set := ZeroDivisionError | IndexError.

Inductive outcome (A : Type) : Type :=
| Ok (a : A)
| Raise (e : exn).
Arguments Ok {A} a.
Arguments Raise {A} e.

(** [int(x)] on a float: truncation toward zero. *)
Definition int (x : Q) : Z := Z.quot (Qnum x) (Zpos (Qden x)).

(** [a / b] with a divisor that is not a non-zero literal. *)
Definition truediv (a b : Q) : outcome Q :=
  if Qeq_bool b 0 then Raise ZeroDivisionError else Ok (a / b)%Q.

(** [x ** n] for a month count [n]. *)
Definition pow (x : Q) (n : nat) : Q := (x ^ Z.of_nat n)%Q.

(** [min(a, b)]: the first argument unless the second is strictly
    smaller. *)
Definition min (a b : Q) : Q := if Qlt_le_dec b a then b else a.

(** [l[i]] for [i >= 0]. *)
Definition index {A : Type} (l : list A) (i : nat) : outcome A :=
  match nth_error l i with
  | Some a => Ok a
  | None => Raise IndexError
  end.

(** [range(a, b)]. *)
Definition range (a b : nat) : list nat := seq a (b - a).

End Py.

Import Py.

(** ** Module state *)

(** One printed table row or summary line, as the integers shown by [%d]. *)
Inductive line : Set :=
| RentalRow (month : nat) (rental : Z)
| HousingRow (month : nat) (interest principle tax hoa insurance total : Z)
| LivingLine (months : nat)
| RentalTotalLine (v : Z)
| BuyingTotalLine (v : Z)
| PureCostLine (v : Z).

Record globals : Set := mkGlobals {
  costOfMonth : list Z;
  principleOfMonth : list Z;
  interestOfMonth : list Z;
  propertyTaxOfMonth : list Z;
  stdout : list line
}.

(** The state of a freshly imported module. *)
Definition fresh : globals := mkGlobals [] [] [] [] [].

(** ** Computations: state and exceptions *)

Definition M (A : Type) : Type := globals -> outcome A * globals.

Definition ret {A : Type} (a : A) : M A := fun g => (Ok a, g).

Definition bind {A B : Type} (m : M A) (k : A -> M B) : M B :=
  fun g =>
    match m g with
    | (Ok a, g') => k a g'
    | (Raise e, g') => (Raise e, g')
    end.

Definition lift {A : Type} (o : outcome A) : M A := fun g => (o, g).

Declare Scope py_scope.
Delimit Scope py_scope with py.
Notation "x <- m ;; k" := (bind m (fun x => k))
  (at level 61, m at next level, right associativity) : py_scope.
Notation "' pat <- m ;; k" := (bind m (fun x => match x with pat => k end))
  (at level 61, pat pattern, m at next level, right associativity) : py_scope.
Notation "m ;; k" := (bind m (fun _ => k))
  (at level 61, right associativity) : py_scope.
Open Scope py_scope.

(** [for x in xs: acc = body(x, acc)]: the local variables a loop body
    reassigns are carried in [acc]. *)
Fixpoint for_in {A B : Type} (xs : list A) (body : A -> B -> M B) (acc : B)
  : M B :=
  match xs with
  | [] => ret acc
  | x :: xs' => acc' <- body x acc ;; for_in xs' body acc'
  end.

(** [lst.append(v)] on each of the module's lists, and [print]. *)
Definition costOfMonth_append (v : Z) : M unit := fun g =>
  (Ok tt, mkGlobals (costOfMonth g ++ [v]) (principleOfMonth g)
            (interestOfMonth g) (propertyTaxOfMonth g) (stdout g)).

Definition principleOfMonth_append (v : Z) : M unit := fun g =>
  (Ok tt, mkGlobals (costOfMonth g) (principleOfMonth g ++ [v])
            (interestOfMonth g) (propertyTaxOfMonth g) (stdout g)).

Definition interestOfMonth_append (v : Z) : M unit := fun g =>
  (Ok tt, mkGlobals (costOfMonth g) (principleOfMonth g)
            (interestOfMonth g ++ [v]) (propertyTaxOfMonth g) (stdout g)).

Definition propertyTaxOfMonth_append (v : Z) : M unit := fun g =>
  (Ok tt, mkGlobals (costOfMonth g) (principleOfMonth g)
            (interestOfMonth g) (propertyTaxOfMonth g ++ [v]) (stdout g)).

Definition print (l : line) : M unit := fun g =>
  (Ok tt, mkGlobals (costOfMonth g) (principleOfMonth g)
            (interestOfMonth g) (propertyTaxOfMonth g) (stdout g ++ [l])).

(** ** The program *)

Open Scope Q_scope.

(** The module-level constants. *)
Record constants : Set := mkConstants {
  LIVING_MONTH : nat;
  INFLATION_RATE : Q;
  INITIAL_MONTHLY_RENT : Q;
  TOTAL_HOUSE_PRICE : Q;
  ANNUAL_INTEREST_RATE : Q;
  MORGAGE_TERMS : nat;
  DOWNPAYMENT_PCT : Q;
  MONTHLY_HOA : Q;
  MONTHLY_INSURANCE : Q;
  ANNUAL_PROPERTY_TAX_RATE : Q
}.

(** The values written in the source. *)
Definition defaults : constants :=
  mkConstants 60 0.025 3300 900000 0.035 360 0.2 500 60 0.0073.

Definition getMonthlyPaymentToBank
  (total downpaymentPct : Q) (loanTermInMonth : nat) (AnnualInterestRate : Q)
  : outcome Q :=
  let morgage := total * (1 - downpaymentPct) in
  let r := AnnualInterestRate / 12 in
  truediv (morgage * (r * pow (1 + r) loanTermInMonth))
          (pow (1 + r) loanTermInMonth - 1).

Definition initCostOfRental (termInMonth : nat) (inflationRate initialRent : Q)
  : M unit :=
  let rent := initialRent in
  _ <- for_in (range 0 termInMonth)
         (fun month rent =>
            costOfMonth_append (int rent) ;;
            ret (rent * (1 + inflationRate / 12)))
         rent ;;
  ret tt.

(** The loop of [initCostOfBank], given the payment computed before it; it
    returns the balance that the variable [morgage] holds when it ends. *)
Definition initCostOfBank_loop
  (termInMonth : nat) (monthlyPayment AnnualInterestRate morgage : Q) : M Q :=
  for_in (range 0 termInMonth)
    (fun month morgage =>
       let interestOfTheMonth := morgage * AnnualInterestRate / 12 in
       let principleOfTheMonth := monthlyPayment - interestOfTheMonth in
       let morgage := morgage - principleOfTheMonth in
       interestOfMonth_append (int interestOfTheMonth) ;;
       principleOfMonth_append (int principleOfTheMonth) ;;
       ret morgage)
    morgage.

Definition initCostOfBank
  (termInMonth : nat) (total downpaymentPct : Q) (loanTermInMonth : nat)
  (AnnualInterestRate : Q) : M unit :=
  let morgage := total * (1 - downpaymentPct) in
  monthlyPayment <- lift (getMonthlyPaymentToBank total downpaymentPct
                            loanTermInMonth AnnualInterestRate) ;;
  _ <- initCostOfBank_loop termInMonth monthlyPayment AnnualInterestRate
         morgage ;;
  ret tt.

Definition initPropertyTax
  (termInMonth : nat) (total propertyTaxRate inflationRate : Q) : M unit :=
  let assessedValueIncRate := 0.02 in
  let incRate := min assessedValueIncRate inflationRate in
  _ <- for_in (range 0 termInMonth)
         (fun month total =>
            let tax := total * propertyTaxRate / 12 in
            propertyTaxOfMonth_append (int tax) ;;
            ret (total * (1 + incRate / 12)))
         total ;;
  ret tt.

Definition getRentalCostByMonth (month : nat) : M Z :=
  fun g => (index (costOfMonth g) month, g).

Definition getInterestCostByMonth (month : nat) : M Z :=
  fun g => (index (interestOfMonth g) month, g).

Definition getPrincipleCostByMonth (month : nat) : M Z :=
  fun g => (index (principleOfMonth g) month, g).

Definition getPropertyTaxByMonth (month : nat) : M Z :=
  fun g => (index (propertyTaxOfMonth g) month, g).

Definition getTotalRentalCost (termInMonth : nat) : M Z :=
  let cost := 0%Z in
  for_in (range 0 termInMonth)
    (fun month cost =>
       rental <- getRentalCostByMonth month ;;
       let cost := (cost + rental)%Z in
       print (RentalRow month rental) ;;
       ret cost)
    cost.

Section Constants.

Variable K : constants.

Definition init : M unit :=
  initCostOfRental (LIVING_MONTH K) (INFLATION_RATE K)
    (INITIAL_MONTHLY_RENT K) ;;
  initCostOfBank (LIVING_MONTH K) (TOTAL_HOUSE_PRICE K) (DOWNPAYMENT_PCT K)
    (MORGAGE_TERMS K) (ANNUAL_INTEREST_RATE K) ;;
  initPropertyTax (LIVING_MONTH K) (TOTAL_HOUSE_PRICE K)
    (ANNUAL_PROPERTY_TAX_RATE K) (INFLATION_RATE K).

Definition getHOAByMonth (month : nat) : Q :=
  MONTHLY_HOA K * pow (1 + INFLATION_RATE K / 12) month.

Definition getInsuranceByMonth (month : nat) : Q :=
  MONTHLY_INSURANCE K * pow (1 + INFLATION_RATE K / 12) month.

(** The interest, principal and tax entries are [int]s and are added as
    such; adding the float [hoa] turns the sum into a float. *)
Definition getTotalHousingCost (termInMonth : nat) : M (Q * Q) :=
  let pureCost := 0 in
  let totalCost := 0 in
  for_in (range 0 termInMonth)
    (fun month '(totalCost, pureCost) =>
       interest <- getInterestCostByMonth month ;;
       principle <- getPrincipleCostByMonth month ;;
       tax <- getPropertyTaxByMonth month ;;
       let hoa := getHOAByMonth month in
       let insurance := getInsuranceByMonth month in
       let total :=
         inject_Z (interest + principle + tax) + hoa + insurance in
       print (HousingRow month interest principle tax (int hoa)
                (int insurance) (int total)) ;;
       let pureCost := pureCost + (total - inject_Z principle) in
       let totalCost := totalCost + total in
       ret (totalCost, pureCost))
    (totalCost, pureCost).


End Constants.

(** ** The loop variables, month by month *)

(** The value a loop variable has at the start of pass [i] when every pass
    replaces it by [step] of itself. *)
Definition carried (step : Q -> Q) (x0 : Q) (i : nat) : Q := Nat.iter i step x0.

(** The reassignments at the end of the three loop bodies. *)
Definition rent_next (inflationRate rent : Q) : Q :=
  rent * (1 + inflationRate / 12).

Definition morgage_next (monthlyPayment AnnualInterestRate morgage : Q) : Q :=
  morgage - (monthlyPayment - morgage * AnnualInterestRate / 12).

Definition total_next (incRate total : Q) : Q := total * (1 + incRate / 12).

(** The untruncated rent of month [i]. *)
Definition rent_at (inflationRate initialRent : Q) (i : nat) : Q :=
  carried (rent_next inflationRate) initialRent i.

(** The remaining balance after [i] payments. *)
Definition morgage_at (monthlyPayment AnnualInterestRate morgage0 : Q)
  (i : nat) : Q :=
  carried (morgage_next monthlyPayment AnnualInterestRate) morgage0 i.

(** The untruncated interest and principal parts of payment [i]. *)
Definition interest_at (monthlyPayment AnnualInterestRate morgage0 : Q)
  (i : nat) : Q :=
  morgage_at monthlyPayment AnnualInterestRate morgage0 i
  * AnnualInterestRate / 12.

Definition principle_at (monthlyPayment AnnualInterestRate morgage0 : Q)
  (i : nat) : Q :=
  monthlyPayment - interest_at monthlyPayment AnnualInterestRate morgage0 i.

(** The assessed value at the start of month [i]. *)
Definition assessed_at (incRate total : Q) (i : nat) : Q :=
  carried (total_next incRate) total i.

(** ** The tables as read by the aggregations *)

(** Entry [month] of a table (0 past its end, where the program raises). *)
Definition entry (table : list Z) (month : nat) : Z := nth month table 0%Z.

Definition sumZ (f : nat -> Z) (months : list nat) : Z :=
  fold_right (fun month s => (f month + s)%Z) 0%Z months.




(** The rows the two aggregations print for [month]. *)
Definition rental_row (g : globals) (month : nat) : line :=
  RentalRow month (entry (costOfMonth g) month).


(** The month total as the specification words it: HOA and insurance
    truncated before they are added. *)
Definition month_total_truncated (K : constants) (g : globals) (month : nat)
  : Z :=
  (entry (interestOfMonth g) month + entry (principleOfMonth g) month
   + entry (propertyTaxOfMonth g) month
   + int (getHOAByMonth K month) + int (getInsuranceByMonth K month))%Z.


(** The tables [init] builds on empty ones, when the payment is
    [monthlyPayment]. *)
Definition rental_series (K : constants) : list Z :=
  map (fun i => int (rent_at (INFLATION_RATE K) (INITIAL_MONTHLY_RENT K) i))
    (seq 0 (LIVING_MONTH K)).

Definition principle_series (K : constants) (monthlyPayment : Q) : list Z :=
  map (fun i => int (principle_at monthlyPayment (ANNUAL_INTEREST_RATE K)
                       (TOTAL_HOUSE_PRICE K * (1 - DOWNPAYMENT_PCT K)) i))
    (seq 0 (LIVING_MONTH K)).

Definition interest_series (K : constants) (monthlyPayment : Q) : list Z :=
  map (fun i => int (interest_at monthlyPayment (ANNUAL_INTEREST_RATE K)
                       (TOTAL_HOUSE_PRICE K * (1 - DOWNPAYMENT_PCT K)) i))
    (seq 0 (LIVING_MONTH K)).

Definition tax_series (K : constants) : list Z :=
  map (fun i => int (assessed_at (min 0.02 (INFLATION_RATE K))
                       (TOTAL_HOUSE_PRICE K) i
                     * ANNUAL_PROPERTY_TAX_RATE K / 12))
    (seq 0 (LIVING_MONTH K)).

(** The state [init] leaves when started in state [g]. *)
Definition after_init (K : constants) (monthlyPayment : Q) (g : globals)
  : globals :=
  mkGlobals
    (costOfMonth g ++ rental_series K)
    (principleOfMonth g ++ principle_series K monthlyPayment)
    (interestOfMonth g ++ interest_series K monthlyPayment)
    (propertyTaxOfMonth g ++ tax_series K)
    (stdout g).




(** A loan of 1200 at 12% a year over two months, for running the program by
    hand. *)
Definition small_loan : constants :=
  mkConstants 2 0.025 100 1200 0.12 2 0 5 1 0.01.


(** Two months of tables, as the source's constants give them, for running
    [getTotalHousingCost] by hand. *)
Definition two_month_tables : globals :=
  mkGlobals [3300; 3306]%Z [1133; 1136]%Z [2100; 2096]%Z [547; 548]%Z [].

(** ** The two table builders over binary64 floats

    [initCostOfRental] and [initPropertyTax] once more, with the loop
    variables as IEEE 754 binary64 values: literals, products, quotients and
    sums round to nearest as Python's do, and [int()] truncates the exact
    value of the float it is given. *)

Set Warnings "-inexact-float".

Module Binary64.

(** The exceptions of [int()] on a float that has no integer value. *)
Inductive exn : Set := OverflowError | ValueError.

Inductive outcome (A : Type) : Type :=
| Ok (a : A)
| Raise (e : exn).
Arguments Ok {A} a.
Arguments Raise {A} e.

(** The exact value of a finite float; an infinity and a NaN have none. *)
Definition value (x : float) : option Q :=
  match Prim2SF x with
  | S754_zero _ => Some 0
  | S754_finite s m e =>
      Some (inject_Z (if s then Z.neg m else Z.pos m) * 2 ^ e)
  | S754_infinity _ => None
  | S754_nan => None
  end.

Definition is_finite (x : float) : bool :=
  match value x with
  | Some _ => true
  | None => false
  end.

(** [int(x)]: the exact value truncated toward zero; [OverflowError] on an
    infinity, [ValueError] on a NaN. *)
Definition int (x : float) : outcome Z :=
  match value x with
  | Some v => Ok (Py.int v)
  | None => if PrimFloat.is_nan x then Raise ValueError else Raise OverflowError
  end.

(** [min(a, b)]: [b] when [b < a], else [a]. *)
Definition min (a b : float) : float := if PrimFloat.ltb b a then b else a.

(** Computations over the same module state. *)
Definition M (A : Type) : Type := globals -> outcome A * globals.

Definition ret {A : Type} (a : A) : M A := fun g => (Ok a, g).

Definition bind {A B : Type} (m : M A) (k : A -> M B) : M B :=
  fun g =>
    match m g with
    | (Ok a, g') => k a g'
    | (Raise e, g') => (Raise e, g')
    end.

Definition lift {A : Type} (o : outcome A) : M A := fun g => (o, g).

Declare Scope py64_scope.
Notation "x <- m ;; k" := (bind m (fun x => k))
  (at level 61, m at next level, right associativity) : py64_scope.
Notation "m ;; k" := (bind m (fun _ => k))
  (at level 61, right associativity) : py64_scope.
Local Open Scope py64_scope.

Fixpoint for_in {A B : Type} (xs : list A) (body : A -> B -> M B) (acc : B)
  : M B :=
  match xs with
  | [] => ret acc
  | x :: xs' => acc' <- body x acc ;; for_in xs' body acc'
  end.

Definition costOfMonth_append (v : Z) : M unit := fun g =>
  (Ok tt, mkGlobals (costOfMonth g ++ [v]) (principleOfMonth g)
            (interestOfMonth g) (propertyTaxOfMonth g) (stdout g)).

Definition propertyTaxOfMonth_append (v : Z) : M unit := fun g =>
  (Ok tt, mkGlobals (costOfMonth g) (principleOfMonth g)
            (interestOfMonth g) (propertyTaxOfMonth g ++ [v]) (stdout g)).

(** [initCostOfRental], lines 57-71, every product and quotient rounded. *)
Definition initCostOfRental
  (termInMonth : nat) (inflationRate initialRent : float) : M unit :=
  let rent := initialRent in
  _ <- for_in (Py.range 0 termInMonth)
         (fun month rent =>
            v <- lift (int rent) ;;
            costOfMonth_append v ;;
            ret (rent * (1 + inflationRate / 12))%float)
         rent ;;
  ret tt.

(** [initPropertyTax], lines 101-122, every product and quotient rounded. *)
Definition initPropertyTax
  (termInMonth : nat) (total propertyTaxRate inflationRate : float) : M unit :=
  let assessedValueIncRate := 0.02%float in
  let incRate := min assessedValueIncRate inflationRate in
  _ <- for_in (Py.range 0 termInMonth)
         (fun month total =>
            let tax := (total * propertyTaxRate / 12)%float in
            v <- lift (int tax) ;;
            propertyTaxOfMonth_append v ;;
            ret (total * (1 + incRate / 12))%float)
         total ;;
  ret tt.

(** The loop variable [rent] on entry to month [i]. *)
Definition rent_at (inflationRate initialRent : float) (i : nat) : float :=
  Nat.iter i (fun rent => rent * (1 + inflationRate / 12))%float initialRent.

(** The loop variable [total] on entry to month [i]. *)
Definition assessed_at (incRate total : float) (i : nat) : float :=
  Nat.iter i (fun total => total * (1 + incRate / 12))%float total.

(** The local [tax] of month [i], before [int()]. *)
Definition tax_at (incRate total propertyTaxRate : float) (i : nat) : float :=
  (assessed_at incRate total i * propertyTaxRate / 12)%float.

(** The integer [int()] gives for a finite float. *)
Definition recorded (x : float) : Z :=
  match value x with
  | Some v => Py.int v
  | None => 0%Z
  end.

End Binary64.

(** The state after appending [entries] to the rental table. *)
Definition put_cost (entries : list Z) (g : globals) : globals :=
  mkGlobals (costOfMonth g ++ entries) (principleOfMonth g)
    (interestOfMonth g) (propertyTaxOfMonth g) (stdout g).

(** The state after appending [entries] to the tax table. *)
Definition put_tax (entries : list Z) (g : globals) : globals :=
  mkGlobals (costOfMonth g) (principleOfMonth g) (interestOfMonth g)
    (propertyTaxOfMonth g ++ entries) (stdout g).

(** * Proofs *)

(** ** Truncation and powers *)

Lemma int_floor (x : Q) : 0 <= x -> int x = Qfloor x.
Proof.
  destruct x as [n d]; unfold Qle, int, Qfloor; simpl; intros H.
  apply Z.quot_div_nonneg; lia.
Qed.

Lemma int_ceiling (x : Q) : x <= 0 -> int x = Qceiling x.
Proof.
  destruct x as [n d]; unfold Qle, int, Qceiling, Qfloor; simpl; intros H.
  rewrite <- (Z.opp_involutive n) at 1.
  rewrite Z.quot_opp_l by lia.
  f_equal. apply Z.quot_div_nonneg; lia.
Qed.

#[global] Instance int_comp : Proper (Qeq ==> eq) int.
Proof.
  intros x y E. destruct (Qlt_le_dec x 0) as [L | L].
  - rewrite !int_ceiling by lra. now apply Qceiling_comp.
  - rewrite !int_floor by lra. now apply Qfloor_comp.
Qed.

Lemma int_inject_Z (z : Z) : int (inject_Z z) = z.
Proof. unfold int; simpl. apply Z.quot_1_r. Qed.


Lemma int_nonneg_bounds (x : Q) :
  0 <= x -> inject_Z (int x) <= x /\ x < inject_Z (int x) + 1.
Proof.
  intros H. rewrite int_floor by assumption. split.
  - apply Qfloor_le.
  - generalize (Qlt_floor x). rewrite inject_Z_plus. trivial.
Qed.



Lemma pow_S (x : Q) (n : nat) : pow x (S n) == x * pow x n.
Proof.
  unfold pow. rewrite Nat2Z.inj_succ, <- Z.add_1_l.
  rewrite Qpower_plus' by lia. reflexivity.
Qed.

Lemma pow_pos (x : Q) (n : nat) : 0 < x -> 0 < pow x n.
Proof.
  intros H. induction n as [| n IH].
  - reflexivity.
  - rewrite pow_S. nra.
Qed.

Lemma pow_ge_1 (x : Q) (n : nat) : 1 <= x -> 1 <= pow x n.
Proof.
  intros H. induction n as [| n IH].
  - unfold pow; simpl. lra.
  - rewrite pow_S. nra.
Qed.

Lemma pow_gt_1 (x : Q) (n : nat) : 1 < x -> (0 < n)%nat -> 1 < pow x n.
Proof.
  intros H Hn. destruct n as [| n]; [lia |].
  rewrite pow_S. generalize (pow_ge_1 x n). intros G. 
  assert (1 <= pow x n) by (apply G; lra). nra.
Qed.

Lemma pow_le_mono (x : Q) (k n : nat) :
  1 <= x -> (k <= n)%nat -> pow x k <= pow x n.
Proof.
  intros H L. induction L as [| n L IH].
  - lra.
  - rewrite (pow_S x n). assert (0 < pow x n) by (apply pow_pos; lra). nra.
Qed.

Lemma pow_1_l (n : nat) : pow 1 n == 1.
Proof.
  induction n as [| n IH]; [reflexivity |]. rewrite pow_S, IH. reflexivity.
Qed.

(** ** The table builders *)

Lemma carried_S_r (step : Q -> Q) (x0 : Q) (i : nat) :
  carried step x0 (S i) = carried step (step x0) i.
Proof. apply Nat.iter_succ_r. Qed.

Lemma map_seq_S {A : Type} (f : nat -> A) (n : nat) :
  map f (seq 1 n) = map (fun i => f (S i)) (seq 0 n).
Proof. now rewrite <- seq_shift, map_map. Qed.

Lemma range_0 (n : nat) : range 0 n = seq 0 n.
Proof. unfold range. now rewrite Nat.sub_0_r. Qed.

Lemma rental_loop (inflationRate : Q) (n : nat) :
  forall (a : nat) (rent : Q) (g : globals),
    for_in (seq a n)
      (fun _ rent =>
         costOfMonth_append (int rent) ;;
         ret (rent * (1 + inflationRate / 12)))
      rent g
    = (Ok (carried (rent_next inflationRate) rent n),
       mkGlobals
         (costOfMonth g
          ++ map (fun i => int (rent_at inflationRate rent i)) (seq 0 n))
         (principleOfMonth g) (interestOfMonth g) (propertyTaxOfMonth g)
         (stdout g)).
Proof.
  induction n as [| n IH]; intros a rent g.
  - simpl. unfold ret. rewrite app_nil_r. now destruct g.
  - cbn [seq for_in]. unfold bind at 1.
    unfold bind at 1, costOfMonth_append at 1, ret at 1.
    rewrite IH. cbn [costOfMonth principleOfMonth interestOfMonth
                       propertyTaxOfMonth stdout].
    rewrite carried_S_r. f_equal. f_equal.
    rewrite <- app_assoc. f_equal. cbn [map app seq].
    f_equal. rewrite map_seq_S. apply map_ext. intros i.
    unfold rent_at. now rewrite carried_S_r.
Qed.

Lemma bank_loop (monthlyPayment AnnualInterestRate : Q) (n : nat) :
  forall (a : nat) (morgage : Q) (g : globals),
    for_in (seq a n)
      (fun _ morgage =>
         let interestOfTheMonth := morgage * AnnualInterestRate / 12 in
         let principleOfTheMonth := monthlyPayment - interestOfTheMonth in
         let morgage := morgage - principleOfTheMonth in
         interestOfMonth_append (int interestOfTheMonth) ;;
         principleOfMonth_append (int principleOfTheMonth) ;;
         ret morgage)
      morgage g
    = (Ok (morgage_at monthlyPayment AnnualInterestRate morgage n),
       mkGlobals
         (costOfMonth g)
         (principleOfMonth g
          ++ map (fun i => int (principle_at monthlyPayment AnnualInterestRate
                                  morgage i)) (seq 0 n))
         (interestOfMonth g
          ++ map (fun i => int (interest_at monthlyPayment AnnualInterestRate
                                  morgage i)) (seq 0 n))
         (propertyTaxOfMonth g) (stdout g)).
Proof.
  induction n as [| n IH]; intros a morgage g.
  - simpl. unfold ret. rewrite !app_nil_r. now destruct g.
  - cbn [seq for_in]. cbv zeta. unfold bind at 1.
    unfold bind at 1, interestOfMonth_append at 1.
    unfold bind at 1, principleOfMonth_append at 1, ret at 1.
    rewrite IH. cbn [costOfMonth principleOfMonth interestOfMonth
                       propertyTaxOfMonth stdout].
    unfold morgage_at. rewrite carried_S_r.
    fold (morgage_next monthlyPayment AnnualInterestRate morgage).
    f_equal. f_equal.
    + rewrite <- app_assoc. f_equal. cbn [map app seq].
      f_equal. rewrite map_seq_S. apply map_ext. intros i.
      unfold principle_at, interest_at, morgage_at.
      now rewrite carried_S_r.
    + rewrite <- app_assoc. f_equal. cbn [map app seq].
      f_equal. rewrite map_seq_S. apply map_ext. intros i.
      unfold interest_at, morgage_at. now rewrite carried_S_r.
Qed.

Lemma initCostOfBank_loop_run
  (termInMonth : nat) (monthlyPayment AnnualInterestRate morgage : Q)
  (g : globals) :
  initCostOfBank_loop termInMonth monthlyPayment AnnualInterestRate morgage g
  = (Ok (morgage_at monthlyPayment AnnualInterestRate morgage termInMonth),
     mkGlobals
       (costOfMonth g)
       (principleOfMonth g
        ++ map (fun i => int (principle_at monthlyPayment AnnualInterestRate
                                morgage i)) (seq 0 termInMonth))
       (interestOfMonth g
        ++ map (fun i => int (interest_at monthlyPayment AnnualInterestRate
                                morgage i)) (seq 0 termInMonth))
       (propertyTaxOfMonth g) (stdout g)).
Proof.
  unfold initCostOfBank_loop. rewrite range_0.
  apply (bank_loop monthlyPayment AnnualInterestRate).
Qed.

Lemma tax_loop (propertyTaxRate incRate : Q) (n : nat) :
  forall (a : nat) (total : Q) (g : globals),
    for_in (seq a n)
      (fun _ total =>
         let tax := total * propertyTaxRate / 12 in
         propertyTaxOfMonth_append (int tax) ;;
         ret (total * (1 + incRate / 12)))
      total g
    = (Ok (assessed_at incRate total n),
       mkGlobals
         (costOfMonth g) (principleOfMonth g) (interestOfMonth g)
         (propertyTaxOfMonth g
          ++ map (fun i => int (assessed_at incRate total i
                                * propertyTaxRate / 12)) (seq 0 n))
         (stdout g)).
Proof.
  induction n as [| n IH]; intros a total g.
  - simpl. unfold ret. rewrite app_nil_r. now destruct g.
  - cbn [seq for_in]. cbv zeta. unfold bind at 1.
    unfold bind at 1, propertyTaxOfMonth_append at 1, ret at 1.
    rewrite IH. cbn [costOfMonth principleOfMonth interestOfMonth
                       propertyTaxOfMonth stdout].
    unfold assessed_at. rewrite carried_S_r.
    fold (total_next incRate total).
    f_equal. f_equal.
    rewrite <- app_assoc. f_equal. cbn [map app seq].
    f_equal. rewrite map_seq_S. apply map_ext. intros i.
    now rewrite carried_S_r.
Qed.

Lemma initCostOfRental_run (termInMonth : nat) (inflationRate initialRent : Q)
  (g : globals) :
  initCostOfRental termInMonth inflationRate initialRent g
  = (Ok tt,
     mkGlobals
       (costOfMonth g
        ++ map (fun i => int (rent_at inflationRate initialRent i))
             (seq 0 termInMonth))
       (principleOfMonth g) (interestOfMonth g) (propertyTaxOfMonth g)
       (stdout g)).
Proof.
  unfold initCostOfRental. unfold bind at 1.
  rewrite range_0, rental_loop. reflexivity.
Qed.

Lemma initCostOfBank_run (termInMonth : nat) (total downpaymentPct : Q)
  (loanTermInMonth : nat) (AnnualInterestRate monthlyPayment : Q)
  (g : globals) :
  getMonthlyPaymentToBank total downpaymentPct loanTermInMonth
    AnnualInterestRate = Ok monthlyPayment ->
  initCostOfBank termInMonth total downpaymentPct loanTermInMonth
    AnnualInterestRate g
  = (Ok tt,
     mkGlobals
       (costOfMonth g)
       (principleOfMonth g
        ++ map (fun i => int (principle_at monthlyPayment AnnualInterestRate
                                (total * (1 - downpaymentPct)) i))
             (seq 0 termInMonth))
       (interestOfMonth g
        ++ map (fun i => int (interest_at monthlyPayment AnnualInterestRate
                                (total * (1 - downpaymentPct)) i))
             (seq 0 termInMonth))
       (propertyTaxOfMonth g) (stdout g)).
Proof.
  intros E. unfold initCostOfBank. cbv zeta. unfold bind at 1, lift.
  rewrite E. unfold bind at 1. rewrite initCostOfBank_loop_run. reflexivity.
Qed.

Lemma initCostOfBank_raise (termInMonth : nat) (total downpaymentPct : Q)
  (loanTermInMonth : nat) (AnnualInterestRate : Q) (e : exn) (g : globals) :
  getMonthlyPaymentToBank total downpaymentPct loanTermInMonth
    AnnualInterestRate = Raise e ->
  initCostOfBank termInMonth total downpaymentPct loanTermInMonth
    AnnualInterestRate g
  = (Raise e, g).
Proof.
  intros E. unfold initCostOfBank, bind, lift. now rewrite E.
Qed.

Lemma initPropertyTax_run (termInMonth : nat)
  (total propertyTaxRate inflationRate : Q) (g : globals) :
  initPropertyTax termInMonth total propertyTaxRate inflationRate g
  = (Ok tt,
     mkGlobals
       (costOfMonth g) (principleOfMonth g) (interestOfMonth g)
       (propertyTaxOfMonth g
        ++ map (fun i => int (assessed_at (min 0.02 inflationRate) total i
                              * propertyTaxRate / 12))
             (seq 0 termInMonth))
       (stdout g)).
Proof.
  unfold initPropertyTax. cbv zeta. unfold bind at 1.
  rewrite range_0, (tax_loop propertyTaxRate (min 0.02 inflationRate)).
  reflexivity.
Qed.

Lemma nth_error_map_seq {A : Type} (f : nat -> A) (n i : nat) :
  (i < n)%nat -> nth_error (map f (seq 0 n)) i = Some (f i).
Proof.
  intros H. rewrite nth_error_map, nth_error_seq.
  destruct (Nat.ltb_spec i n); [reflexivity | lia].
Qed.

(** ** The rental and the tax table in binary64 *)

Lemma int64_finite (x : float) :
  Binary64.is_finite x = true ->
  Binary64.int x = Binary64.Ok (Binary64.recorded x).
Proof.
  unfold Binary64.is_finite, Binary64.int, Binary64.recorded.
  destruct (Binary64.value x); [reflexivity | discriminate].
Qed.

Lemma int64_not_finite (x : float) :
  Binary64.is_finite x = false ->
  Binary64.int x
  = Binary64.Raise (if PrimFloat.is_nan x then Binary64.ValueError
                    else Binary64.OverflowError).
Proof.
  unfold Binary64.is_finite, Binary64.int.
  destruct (Binary64.value x); [discriminate |].
  now destruct (PrimFloat.is_nan x).
Qed.

Lemma value64_nonneg (x : float) (v : Q) :
  (0 <=? x)%float = true -> Binary64.value x = Some v -> 0 <= v.
Proof.
  rewrite leb_spec. change (Prim2SF 0) with (S754_zero false).
  unfold Binary64.value.
  destruct (Prim2SF x) as [s | s | | s m e]; cbn; try discriminate.
  - intros _ [= <-]. apply Qle_refl.
  - destruct s; [discriminate |]. intros _ [= <-].
    apply Qmult_le_0_compat.
    + unfold Qle; simpl; lia.
    + apply Qpower_0_le. discriminate.
Qed.

(** One loop for both builders: [emit] is what [int()] is applied to,
    [step] the update of the loop variable. *)
Section Builder64.

Variables (emit step : float -> float).
Variable append : Z -> Binary64.M unit.
Variable put : list Z -> globals -> globals.

Hypothesis append_put :
  forall (v : Z) (g : globals), append v g = (Binary64.Ok tt, put [v] g).
Hypothesis put_put :
  forall (l l' : list Z) (g : globals), put l' (put l g) = put (l ++ l') g.
Hypothesis put_nil : forall g : globals, put [] g = g.

Lemma builder_loop64 (n : nat) :
  forall (a : nat) (x : float) (g : globals),
    (forall i : nat,
        (i < n)%nat -> Binary64.is_finite (emit (Nat.iter i step x)) = true) ->
    Binary64.for_in (seq a n)
      (fun _ x =>
         Binary64.bind (Binary64.lift (Binary64.int (emit x)))
           (fun v =>
              Binary64.bind (append v) (fun _ => Binary64.ret (step x))))
      x g
    = (Binary64.Ok (Nat.iter n step x),
       put (map (fun i => Binary64.recorded (emit (Nat.iter i step x)))
              (seq 0 n)) g).
Proof.
  induction n as [| n IH]; intros a x g F.
  - cbn [seq Binary64.for_in map]. now rewrite put_nil.
  - cbn [seq Binary64.for_in]. unfold Binary64.bind at 1.
    unfold Binary64.bind at 1, Binary64.lift at 1.
    rewrite (int64_finite (emit x)) by (apply (F 0%nat); lia).
    unfold Binary64.bind at 1. rewrite append_put. unfold Binary64.ret at 1.
    rewrite IH.
    2: { intros i Hi. rewrite <- Nat.iter_succ_r. apply F. lia. }
    rewrite put_put, Nat.iter_succ_r. f_equal. f_equal.
    cbn [map app seq]. f_equal. rewrite map_seq_S. apply map_ext.
    intros i. now rewrite Nat.iter_succ_r.
Qed.

Lemma builder_loop64_raise (k : nat) :
  forall (n a : nat) (x : float) (g : globals),
    (k < n)%nat ->
    (forall i : nat,
        (i < k)%nat -> Binary64.is_finite (emit (Nat.iter i step x)) = true) ->
    Binary64.is_finite (emit (Nat.iter k step x)) = false ->
    Binary64.for_in (seq a n)
      (fun _ x =>
         Binary64.bind (Binary64.lift (Binary64.int (emit x)))
           (fun v =>
              Binary64.bind (append v) (fun _ => Binary64.ret (step x))))
      x g
    = (Binary64.Raise
         (if PrimFloat.is_nan (emit (Nat.iter k step x))
          then Binary64.ValueError else Binary64.OverflowError),
       put (map (fun i => Binary64.recorded (emit (Nat.iter i step x)))
              (seq 0 k)) g).
Proof.
  induction k as [| k IH]; intros n a x g Hk F N.
  - destruct n as [| n]; [lia |].
    cbn [seq Binary64.for_in]. unfold Binary64.bind at 1.
    unfold Binary64.bind at 1, Binary64.lift at 1.
    rewrite (int64_not_finite (emit x)) by exact N.
    cbn [map seq]. now rewrite put_nil.
  - destruct n as [| n]; [lia |].
    cbn [seq Binary64.for_in]. unfold Binary64.bind at 1.
    unfold Binary64.bind at 1, Binary64.lift at 1.
    rewrite (int64_finite (emit x)) by (apply (F 0%nat); lia).
    unfold Binary64.bind at 1. rewrite append_put. unfold Binary64.ret at 1.
    rewrite (IH n); [| lia | |].
    + rewrite put_put, Nat.iter_succ_r. f_equal.
      cbn [map app seq]. f_equal. f_equal. rewrite map_seq_S. apply map_ext.
      intros i. now rewrite Nat.iter_succ_r.
    + intros i Hi. rewrite <- Nat.iter_succ_r. apply F. lia.
    + rewrite <- Nat.iter_succ_r. exact N.
Qed.

End Builder64.

Lemma put_cost_put (l l' : list Z) (g : globals) :
  put_cost l' (put_cost l g) = put_cost (l ++ l') g.
Proof. unfold put_cost. cbn. now rewrite app_assoc. Qed.

Lemma put_cost_nil (g : globals) : put_cost [] g = g.
Proof. unfold put_cost. rewrite app_nil_r. now destruct g. Qed.

Lemma put_tax_put (l l' : list Z) (g : globals) :
  put_tax l' (put_tax l g) = put_tax (l ++ l') g.
Proof. unfold put_tax. cbn. now rewrite app_assoc. Qed.

Lemma put_tax_nil (g : globals) : put_tax [] g = g.
Proof. unfold put_tax. rewrite app_nil_r. now destruct g. Qed.

Lemma initCostOfRental64_run
  (termInMonth : nat) (inflationRate initialRent : float) (g : globals) :
  (forall i : nat,
      (i < termInMonth)%nat ->
      Binary64.is_finite (Binary64.rent_at inflationRate initialRent i)
      = true) ->
  Binary64.initCostOfRental termInMonth inflationRate initialRent g
  = (Binary64.Ok tt,
     put_cost
       (map (fun i =>
               Binary64.recorded
                 (Binary64.rent_at inflationRate initialRent i))
          (seq 0 termInMonth)) g).
Proof.
  intros F. unfold Binary64.initCostOfRental. unfold Binary64.bind at 1.
  rewrite range_0.
  rewrite (builder_loop64 (fun rent => rent)
             (fun rent => rent * (1 + inflationRate / 12))%float
             Binary64.costOfMonth_append put_cost
             (fun _ _ => eq_refl) put_cost_put put_cost_nil
             termInMonth 0 initialRent g F).
  reflexivity.
Qed.

Lemma initPropertyTax64_run
  (termInMonth : nat) (total propertyTaxRate inflationRate : float)
  (g : globals) :
  (forall i : nat,
      (i < termInMonth)%nat ->
      Binary64.is_finite
        (Binary64.tax_at (Binary64.min 0.02 inflationRate) total
           propertyTaxRate i) = true) ->
  Binary64.initPropertyTax termInMonth total propertyTaxRate inflationRate g
  = (Binary64.Ok tt,
     put_tax
       (map (fun i =>
               Binary64.recorded
                 (Binary64.tax_at (Binary64.min 0.02 inflationRate) total
                    propertyTaxRate i))
          (seq 0 termInMonth)) g).
Proof.
  intros F. unfold Binary64.initPropertyTax. cbv zeta.
  unfold Binary64.bind at 1. rewrite range_0.
  rewrite (builder_loop64 (fun total => total * propertyTaxRate / 12)%float
             (fun total =>
                total * (1 + Binary64.min 0.02 inflationRate / 12))%float
             Binary64.propertyTaxOfMonth_append put_tax
             (fun _ _ => eq_refl) put_tax_put put_tax_nil
             termInMonth 0 total g F).
  reflexivity.
Qed.

Lemma initCostOfRental64_raise
  (termInMonth k : nat) (inflationRate initialRent : float) (g : globals) :
  (k < termInMonth)%nat ->
  (forall i : nat,
      (i < k)%nat ->
      Binary64.is_finite (Binary64.rent_at inflationRate initialRent i)
      = true) ->
  Binary64.is_finite (Binary64.rent_at inflationRate initialRent k) = false ->
  Binary64.initCostOfRental termInMonth inflationRate initialRent g
  = (Binary64.Raise
       (if PrimFloat.is_nan (Binary64.rent_at inflationRate initialRent k)
        then Binary64.ValueError else Binary64.OverflowError),
     put_cost
       (map (fun i =>
               Binary64.recorded
                 (Binary64.rent_at inflationRate initialRent i))
          (seq 0 k)) g).
Proof.
  intros Hk F N. unfold Binary64.initCostOfRental. unfold Binary64.bind at 1.
  rewrite range_0.
  rewrite (builder_loop64_raise (fun rent => rent)
             (fun rent => rent * (1 + inflationRate / 12))%float
             Binary64.costOfMonth_append put_cost
             (fun _ _ => eq_refl) put_cost_put put_cost_nil
             k termInMonth 0 initialRent g Hk F N).
  reflexivity.
Qed.

(** [C1].  In binary64, starting from empty tables, for a positive term and
    as long as the carried rent stays finite, [initCostOfRental] returns and
    the rental table holds one entry per month.  Month 0 holds [int] of the
    initial rent, which is its floor whenever the initial rent is not
    negative; month [i + 1] holds [int] of the untruncated rent carried from
    month [i] times [1 + inflationRate / 12].  The carried rent
    [Binary64.rent_at] starts at the initial rent and is itself never
    truncated. *)
Theorem initCostOfRental_series
  (termInMonth : nat) (inflationRate initialRent : float) :
  (0 < termInMonth)%nat ->
  (forall i : nat,
      (i < termInMonth)%nat ->
      Binary64.is_finite (Binary64.rent_at inflationRate initialRent i)
      = true) ->
  let run :=
    Binary64.initCostOfRental termInMonth inflationRate initialRent fresh in
  let series := costOfMonth (snd run) in
  let carry := Binary64.rent_at inflationRate initialRent in
  fst run = Binary64.Ok tt
  /\ length series = termInMonth
  /\ (exists entry : Z,
         Binary64.int initialRent = Binary64.Ok entry
         /\ nth_error series 0 = Some entry)
  /\ ((0 <=? initialRent)%float = true ->
      exists v : Q,
        Binary64.value initialRent = Some v
        /\ nth_error series 0 = Some (Qfloor v))
  /\ carry 0%nat = initialRent
  /\ (forall i : nat,
        carry (S i) = (carry i * (1 + inflationRate / 12))%float
        /\ ((S i < termInMonth)%nat ->
            exists entry : Z,
              Binary64.int (carry i * (1 + inflationRate / 12))%float
              = Binary64.Ok entry
              /\ nth_error series (S i) = Some entry)).
Proof.
  intros HT F run series carry. subst run series carry.
  rewrite (initCostOfRental64_run _ _ _ fresh F).
  cbn [fst snd put_cost costOfMonth fresh app].
  split; [reflexivity |].
  split; [now rewrite length_map, length_seq |].
  assert (F0 : Binary64.is_finite initialRent = true) by (apply (F 0%nat HT)).
  split.
  { eexists. split; [apply (int64_finite _ F0) |].
    now rewrite nth_error_map_seq. }
  split.
  { intros H0. unfold Binary64.is_finite in F0.
    destruct (Binary64.value initialRent) as [v |] eqn:V; [| discriminate].
    exists v. split; [reflexivity |].
    rewrite nth_error_map_seq by assumption.
    change (Binary64.rent_at inflationRate initialRent 0) with initialRent.
    unfold Binary64.recorded. rewrite V.
    f_equal. apply int_floor. now apply (value64_nonneg initialRent). }
  split; [reflexivity |].
  intros i. split; [reflexivity |].
  intros Hi. eexists. split.
  - apply int64_finite. apply (F (S i) Hi).
  - now rewrite nth_error_map_seq.
Qed.

Lemma initCostOfRental_series_witness :
  (0 < 3)%nat
  /\ (forall i : nat,
         (i < 3)%nat ->
         Binary64.is_finite (Binary64.rent_at 0.025 3300 i) = true)
  /\ nth_error
       (costOfMonth (snd (Binary64.initCostOfRental 3 0.025 3300 fresh))) 0
     = Some 3300%Z.
Proof.
  assert (F : forall i : nat,
             (i < 3)%nat ->
             Binary64.is_finite (Binary64.rent_at 0.025 3300 i) = true).
  { intros [| [| [| i]]] Hi; [reflexivity | reflexivity | reflexivity | lia]. }
  split; [lia |]. split; [exact F |].
  destruct (initCostOfRental_series 3 0.025 3300 (Nat.lt_0_succ 2) F)
    as (_ & _ & (entry & E & N) & _).
  rewrite N. f_equal. cbv in E. now injection E as <-.
Defined.

(** Truncating the carried rent as well would record other values: with the
    source's rent and inflation rate the table reads 3300, 3306, 3313, and
    not the 3312 obtained from the truncated month-1 rent. *)
Example rent_carry_not_truncated :
  costOfMonth (snd (Binary64.initCostOfRental 3 0.025 3300 fresh))
  = [3300; 3306; 3313]%Z
  /\ Binary64.int (3306 * (1 + 0.025 / 12))%float = Binary64.Ok 3312%Z.
Proof. split; reflexivity. Qed.

(** The entry is the truncation of the rounded product: at a rent of 1000
    and 6% inflation month 1 holds 1004, from a product just below the 1005
    of exact arithmetic. *)
Example rent_rounded_before_truncation :
  costOfMonth (snd (Binary64.initCostOfRental 2 0.06 1000 fresh))
  = [1000; 1004]%Z
  /\ Py.int (1000 * (1 + 0.06 / 12)) = 1005%Z.
Proof. split; reflexivity. Qed.

(** [C3].  In binary64, starting from empty tables and as long as the
    monthly tax stays finite, [initPropertyTax] returns and the tax table
    holds at every month [i] of the term [int] of the assessed value of that
    month times [propertyTaxRate], over 12; the assessed value starts at the
    house price and is multiplied after each month by [1 + incRate / 12],
    where [incRate] is the one value [min(0.02, inflationRate)] for all
    months. *)
Theorem initPropertyTax_series
  (termInMonth : nat) (total propertyTaxRate inflationRate : float) :
  (forall i : nat,
      (i < termInMonth)%nat ->
      Binary64.is_finite
        (Binary64.tax_at (Binary64.min 0.02 inflationRate) total
           propertyTaxRate i) = true) ->
  let run :=
    Binary64.initPropertyTax termInMonth total propertyTaxRate inflationRate
      fresh in
  let series := propertyTaxOfMonth (snd run) in
  let incRate := Binary64.min 0.02 inflationRate in
  let assessedValue := Binary64.assessed_at incRate total in
  fst run = Binary64.Ok tt
  /\ length series = termInMonth
  /\ (incRate = if (inflationRate <? 0.02)%float
                then inflationRate else 0.02%float)
  /\ assessedValue 0%nat = total
  /\ (forall i : nat,
        assessedValue (S i) = (assessedValue i * (1 + incRate / 12))%float
        /\ ((i < termInMonth)%nat ->
            exists entry : Z,
              Binary64.int (assessedValue i * propertyTaxRate / 12)%float
              = Binary64.Ok entry
              /\ nth_error series i = Some entry)).
Proof.
  intros F run series incRate assessedValue.
  subst run series incRate assessedValue.
  rewrite (initPropertyTax64_run _ _ _ _ fresh F).
  cbn [fst snd put_tax propertyTaxOfMonth fresh app].
  split; [reflexivity |].
  split; [now rewrite length_map, length_seq |].
  split; [reflexivity |].
  split; [reflexivity |].
  intros i. split; [reflexivity |].
  intros Hi. eexists. split.
  - apply int64_finite. apply (F i Hi).
  - now rewrite nth_error_map_seq.
Qed.

Lemma initPropertyTax_series_witness :
  (forall i : nat,
      (i < 2)%nat ->
      Binary64.is_finite
        (Binary64.tax_at (Binary64.min 0.02 0.025) 900000 0.0073 i) = true)
  /\ nth_error
       (propertyTaxOfMonth
          (snd (Binary64.initPropertyTax 2 900000 0.0073 0.025 fresh))) 1
     = Some 548%Z.
Proof.
  assert (F : forall i : nat,
             (i < 2)%nat ->
             Binary64.is_finite
               (Binary64.tax_at (Binary64.min 0.02 0.025) 900000 0.0073 i)
             = true).
  { intros [| [| i]] Hi; [reflexivity | reflexivity | lia]. }
  split; [exact F |].
  destruct (initPropertyTax_series 2 900000 0.0073 0.025 F)
    as (_ & _ & _ & _ & H).
  destruct (H 1%nat) as [_ H1].
  destruct (H1 (Nat.lt_succ_diag_r 1)) as (entry & E & N).
  rewrite N. f_equal. cbv in E. now injection E as <-.
Defined.

(** The same rounding in the tax table: a price of 900000 at a rate of 0.009
    records 674 in month 0, from a quotient just below the 675 of exact
    arithmetic. *)
Example tax_rounded_before_truncation :
  propertyTaxOfMonth
    (snd (Binary64.initPropertyTax 1 900000 0.009 0.025 fresh)) = [674]%Z
  /\ Py.int (900000 * 0.009 / 12) = 675%Z.
Proof. split; reflexivity. Qed.

(** ** The monthly payment and the amortization schedule *)

Lemma inject_Z_lt_inv (x y : Z) : inject_Z x < inject_Z y -> (x < y)%Z.
Proof. unfold Qlt; simpl; lia. Qed.


Lemma getMonthlyPaymentToBank_inv (total downpaymentPct : Q)
  (loanTermInMonth : nat) (AnnualInterestRate monthlyPayment : Q) :
  getMonthlyPaymentToBank total downpaymentPct loanTermInMonth
    AnnualInterestRate = Ok monthlyPayment ->
  let r := AnnualInterestRate / 12 in
  ~ pow (1 + r) loanTermInMonth - 1 == 0
  /\ monthlyPayment
     = total * (1 - downpaymentPct) * (r * pow (1 + r) loanTermInMonth)
       / (pow (1 + r) loanTermInMonth - 1).
Proof.
  unfold getMonthlyPaymentToBank, truediv. cbv zeta.
  destruct (Qeq_bool _ 0) eqn:E; [discriminate |].
  intros [= <-]. split; [| reflexivity].
  now apply Qeq_bool_neq.
Qed.

Lemma getMonthlyPaymentToBank_returns (total downpaymentPct : Q)
  (loanTermInMonth : nat) (AnnualInterestRate : Q) :
  0 < AnnualInterestRate -> (0 < loanTermInMonth)%nat ->
  exists monthlyPayment : Q,
    getMonthlyPaymentToBank total downpaymentPct loanTermInMonth
      AnnualInterestRate = Ok monthlyPayment.
Proof.
  intros Hr Hn. unfold getMonthlyPaymentToBank, truediv. cbv zeta.
  destruct (Qeq_bool _ 0) eqn:E; [| eauto].
  apply Qeq_bool_eq in E.
  assert (1 < pow (1 + AnnualInterestRate / 12) loanTermInMonth).
  { apply pow_gt_1; [| assumption].
    assert (0 < AnnualInterestRate / 12) by (apply Qlt_shift_div_l; lra).
    lra. }
  lra.
Qed.

Lemma getMonthlyPaymentToBank_zero_rate (total downpaymentPct : Q)
  (loanTermInMonth : nat) :
  getMonthlyPaymentToBank total downpaymentPct loanTermInMonth 0
  = Raise ZeroDivisionError.
Proof.
  unfold getMonthlyPaymentToBank, truediv. cbv zeta.
  rewrite (Qeq_eq_bool (pow (1 + 0 / 12) loanTermInMonth - 1) 0);
    [reflexivity |].
  assert (E : 1 + 0 / 12 == 1) by reflexivity.
  unfold pow. rewrite E, Qpower_1. reflexivity.
Qed.

Lemma getMonthlyPaymentToBank_zero_term (total downpaymentPct : Q)
  (AnnualInterestRate : Q) :
  getMonthlyPaymentToBank total downpaymentPct 0 AnnualInterestRate
  = Raise ZeroDivisionError.
Proof. reflexivity. Qed.

Lemma morgage_at_S (mp rate P : Q) (i : nat) :
  morgage_at mp rate P (S i)
  == morgage_at mp rate P i * (1 + rate / 12) - mp.
Proof.
  unfold morgage_at, carried. rewrite Nat.iter_succ.
  unfold morgage_next at 1. field.
Qed.


Lemma morgage_at_0 (mp rate P : Q) : morgage_at mp rate P 0 = P.
Proof. reflexivity. Qed.

Lemma morgage_diff (mp rate P : Q) (i : nat) :
  morgage_at mp rate P (S (S i)) - morgage_at mp rate P (S i)
  == (1 + rate / 12) * (morgage_at mp rate P (S i) - morgage_at mp rate P i).
Proof.
  rewrite (morgage_at_S mp rate P (S i)), (morgage_at_S mp rate P i). ring.
Qed.

Section Amortization.

Variables (total downpaymentPct AnnualInterestRate monthlyPayment : Q).
Variable loanTermInMonth : nat.

Let morgage0 := total * (1 - downpaymentPct).
Let r := AnnualInterestRate / 12.
Let Qn := pow (1 + r) loanTermInMonth.

Hypothesis payment :
  getMonthlyPaymentToBank total downpaymentPct loanTermInMonth
    AnnualInterestRate = Ok monthlyPayment.
Hypothesis rate_pos : 0 < AnnualInterestRate.

Lemma r_pos : 0 < r.
Proof. unfold r. apply Qlt_shift_div_l; lra. Qed.

Lemma Qn_gt_1 : 1 < Qn.
Proof.
  destruct (getMonthlyPaymentToBank_inv _ _ _ _ _ payment) as [NZ _].
  fold r Qn in NZ.
  assert (1 <= Qn) by (apply pow_ge_1; generalize r_pos; lra).
  destruct (Qlt_le_dec 1 Qn); [assumption |].
  exfalso. apply NZ. lra.
Qed.

Lemma payment_eq : monthlyPayment * (Qn - 1) == morgage0 * r * Qn.
Proof.
  destruct (getMonthlyPaymentToBank_inv _ _ _ _ _ payment) as [NZ ->].
  fold r Qn morgage0 in NZ |- *. field. exact NZ.
Qed.

Lemma morgage_closed_form (i : nat) :
  morgage_at monthlyPayment AnnualInterestRate morgage0 i * (Qn - 1)
  == morgage0 * (Qn - pow (1 + r) i).
Proof.
  induction i as [| i IH].
  - rewrite morgage_at_0. change (pow (1 + r) 0) with 1. ring.
  - rewrite morgage_at_S, pow_S. fold r.
    generalize payment_eq. intros E.
    set (b := morgage_at monthlyPayment AnnualInterestRate morgage0 i) in *.
    set (qi := pow (1 + r) i) in *.
    transitivity (b * (Qn - 1) * (1 + r) - monthlyPayment * (Qn - 1));
      [ring |].
    rewrite IH, E. ring.
Qed.

Lemma morgage_nonneg (i : nat) :
  0 <= morgage0 -> (i <= loanTermInMonth)%nat ->
  0 <= morgage_at monthlyPayment AnnualInterestRate morgage0 i.
Proof.
  intros HP Hi.
  assert (H := morgage_closed_form i).
  assert (L : pow (1 + r) i <= Qn).
  { apply pow_le_mono; [generalize r_pos; lra | assumption]. }
  generalize Qn_gt_1. intros G.
  set (b := morgage_at monthlyPayment AnnualInterestRate morgage0 i) in *.
  assert (0 <= b * (Qn - 1)) by (rewrite H; nra).
  nra.
Qed.

Lemma morgage_first_step :
  0 <= morgage0 ->
  morgage_at monthlyPayment AnnualInterestRate morgage0 1
  <= morgage_at monthlyPayment AnnualInterestRate morgage0 0.
Proof.
  intros HP. rewrite morgage_at_S, morgage_at_0. fold r.
  generalize payment_eq Qn_gt_1 r_pos. intros E G R.
  assert (0 <= (monthlyPayment - morgage0 * r) * (Qn - 1)).
  { setoid_replace ((monthlyPayment - morgage0 * r) * (Qn - 1))
      with (monthlyPayment * (Qn - 1) - morgage0 * r * (Qn - 1)) by ring.
    rewrite E. nra. }
  nra.
Qed.

Lemma morgage_nonincreasing (i : nat) :
  0 <= morgage0 ->
  morgage_at monthlyPayment AnnualInterestRate morgage0 (S i)
  <= morgage_at monthlyPayment AnnualInterestRate morgage0 i.
Proof.
  intros HP. induction i as [| i IH].
  - now apply morgage_first_step.
  - assert (D := morgage_diff monthlyPayment AnnualInterestRate morgage0 i).
    fold r in D. generalize r_pos. intros R. nra.
Qed.

Lemma interest_nonincreasing (i : nat) :
  0 <= morgage0 ->
  interest_at monthlyPayment AnnualInterestRate morgage0 (S i)
  <= interest_at monthlyPayment AnnualInterestRate morgage0 i.
Proof.
  intros HP. unfold interest_at.
  assert (H := morgage_nonincreasing i HP).
  unfold Qdiv. rewrite <- !Qmult_assoc.
  setoid_replace (AnnualInterestRate * / 12) with r by reflexivity.
  generalize r_pos. intros R. nra.
Qed.

Lemma principle_nondecreasing (i : nat) :
  0 <= morgage0 ->
  principle_at monthlyPayment AnnualInterestRate morgage0 i
  <= principle_at monthlyPayment AnnualInterestRate morgage0 (S i).
Proof.
  intros HP. unfold principle_at.
  assert (H := interest_nonincreasing i HP). lra.
Qed.



End Amortization.

Lemma interest_at_zero_rate (monthlyPayment morgage0 : Q) (i : nat) :
  interest_at monthlyPayment 0 morgage0 i == 0.
Proof. unfold interest_at. field. Qed.

Lemma int_unique (x : Q) (z : Z) :
  (0 <= z)%Z -> inject_Z z <= x -> x < inject_Z z + 1 -> int x = z.
Proof.
  intros Hz L U.
  assert (H0 : 0 <= x).
  { apply Qle_trans with (2 := L). unfold Qle; simpl; lia. }
  destruct (int_nonneg_bounds x H0) as [B1 B2].
  assert (G1 : inject_Z (int x) < inject_Z (z + 1))
    by (rewrite inject_Z_plus; change (inject_Z 1) with 1; lra).
  assert (G2 : inject_Z z < inject_Z (int x + 1))
    by (rewrite inject_Z_plus; change (inject_Z 1) with 1; lra).
  apply inject_Z_lt_inv in G1, G2. lia.
Qed.

(** The source's constants: [(1 + 0.035 / 12) ** 360] and the payment. *)
Lemma default_pow_bounds :
  2.853287 < pow (1 + 0.035 / 12) 360 /\ pow (1 + 0.035 / 12) 360 < 2.853288.
Proof. split; vm_compute; reflexivity. Qed.

Lemma default_payment_bounds (monthlyPayment : Q) :
  getMonthlyPaymentToBank 900000 0.2 360 0.035 = Ok monthlyPayment ->
  3233.12 < monthlyPayment /\ monthlyPayment < 3233.13.
Proof.
  intros E.
  assert (P := payment_eq _ _ _ _ _ E).
  destruct default_pow_bounds as [L U].
  set (Qn := pow (1 + 0.035 / 12) 360) in *.
  set (d := Qn - 1) in *.
  assert (Hd : 0 < d) by (unfold d; lra).
  assert (P' : monthlyPayment * d == 2100 * Qn) by (rewrite P; field).
  split.
  - assert (0 < (monthlyPayment - 3233.12) * d).
    { setoid_replace ((monthlyPayment - 3233.12) * d)
        with (monthlyPayment * d - 3233.12 * d) by ring.
      rewrite P'. unfold d. lra. }
    nra.
  - assert (0 < (3233.13 - monthlyPayment) * d).
    { setoid_replace ((3233.13 - monthlyPayment) * d)
        with (3233.13 * d - monthlyPayment * d) by ring.
      rewrite P'. unfold d. lra. }
    nra.
Qed.

Lemma default_first_months (monthlyPayment : Q) :
  getMonthlyPaymentToBank 900000 0.2 360 0.035 = Ok monthlyPayment ->
  let morgage0 := 900000 * (1 - 0.2) in
  int (interest_at monthlyPayment 0.035 morgage0 0) = 2100%Z
  /\ int (principle_at monthlyPayment 0.035 morgage0 0) = 1133%Z
  /\ int (interest_at monthlyPayment 0.035 morgage0 1) = 2096%Z
  /\ int (principle_at monthlyPayment 0.035 morgage0 1) = 1136%Z.
Proof.
  intros E morgage0. subst morgage0.
  destruct (default_payment_bounds monthlyPayment E) as [L U].
  assert (I0 : interest_at monthlyPayment 0.035 (900000 * (1 - 0.2)) 0
               == 2100).
  { unfold interest_at. rewrite morgage_at_0. reflexivity. }
  assert (I1 : interest_at monthlyPayment 0.035 (900000 * (1 - 0.2)) 1
               == (722100 - monthlyPayment) * (35 # 12000)).
  { unfold interest_at. rewrite morgage_at_S, morgage_at_0. field. }
  split; [| split; [| split]].
  - rewrite I0. reflexivity.
  - unfold principle_at. apply int_unique; [lia | |]; rewrite I0;
      change (inject_Z 1133) with 1133; lra.
  - apply int_unique; [lia | |]; rewrite I1;
      change (inject_Z 2096) with 2096; lra.
  - unfold principle_at. apply int_unique; [lia | |]; rewrite I1;
      change (inject_Z 1136) with 1136; lra.
Qed.




(** The same by hand on a loan of 99.9 at 12% a year over one month: the
    payment is 100.899, recorded as interest 0 and principal 99. *)
Example one_month_loan_split :
  exists monthlyPayment : Q,
    getMonthlyPaymentToBank 99.9 0 1 0.12 = Ok monthlyPayment
    /\ monthlyPayment == 100.899
    /\ nth_error
         (interestOfMonth (snd (initCostOfBank 1 99.9 0 1 0.12 fresh))) 0
       = Some 0%Z
    /\ nth_error
         (principleOfMonth (snd (initCostOfBank 1 99.9 0 1 0.12 fresh))) 0
       = Some 99%Z
    /\ 1 < Qabs (inject_Z (0 + 99) - monthlyPayment).
Proof.
  exists (17435347200 # 172800000). repeat split.
Qed.

(** [C4], what the code does.  With an annual interest rate of 0 the divisor
    of the annuity formula is [1 ** n - 1 = 0]: [getMonthlyPaymentToBank]
    raises [ZeroDivisionError] whatever the price, the down payment and the
    loan term, and [initCostOfBank] raises with it before recording any
    month. *)
Theorem zero_rate_raises
  (termInMonth : nat) (total downpaymentPct : Q) (loanTermInMonth : nat)
  (g : globals) :
  getMonthlyPaymentToBank total downpaymentPct loanTermInMonth 0
  = Raise ZeroDivisionError
  /\ initCostOfBank termInMonth total downpaymentPct loanTermInMonth 0 g
     = (Raise ZeroDivisionError, g).
Proof.
  split.
  - apply getMonthlyPaymentToBank_zero_rate.
  - apply initCostOfBank_raise, getMonthlyPaymentToBank_zero_rate.
Qed.

(** The source's own constants with the interest rate set to 0. *)
Example zero_rate_defaults :
  getMonthlyPaymentToBank 900000 0.2 360 0 = Raise ZeroDivisionError.
Proof. apply getMonthlyPaymentToBank_zero_rate. Qed.

(** [C7].  With the source's constants the payment is defined, the loop of
    [initCostOfBank] run for [i] months leaves the balance [morgage_at i] in
    its variable [morgage], and over the 60 modelled months that balance
    starts non-negative, never increases from one month to the next and
    never becomes negative. *)
Theorem default_balance_monotone :
  let morgage0 := TOTAL_HOUSE_PRICE defaults * (1 - DOWNPAYMENT_PCT defaults) in
  exists monthlyPayment : Q,
    getMonthlyPaymentToBank (TOTAL_HOUSE_PRICE defaults)
      (DOWNPAYMENT_PCT defaults) (MORGAGE_TERMS defaults)
      (ANNUAL_INTEREST_RATE defaults) = Ok monthlyPayment
    /\ let balance :=
         morgage_at monthlyPayment (ANNUAL_INTEREST_RATE defaults) morgage0 in
       (forall (i : nat) (g : globals),
           fst (initCostOfBank_loop i monthlyPayment
                  (ANNUAL_INTEREST_RATE defaults) morgage0 g)
           = Ok (balance i))
       /\ 0 <= balance 0%nat
       /\ forall i : nat,
            (i < LIVING_MONTH defaults)%nat ->
            balance (S i) <= balance i /\ 0 <= balance (S i).
Proof.
  intros morgage0.
  destruct (getMonthlyPaymentToBank_returns (TOTAL_HOUSE_PRICE defaults)
              (DOWNPAYMENT_PCT defaults) (MORGAGE_TERMS defaults)
              (ANNUAL_INTEREST_RATE defaults)) as [mp E];
    [reflexivity | cbn; lia |].
  exists mp. split; [exact E |]. cbv zeta.
  assert (R : 0 < ANNUAL_INTEREST_RATE defaults) by reflexivity.
  assert (P : 0 <= morgage0) by (vm_compute; discriminate).
  split; [| split].
  - intros i g. now rewrite initCostOfBank_loop_run.
  - exact P.
  - intros i Hi. split.
    + apply (morgage_nonincreasing _ _ _ _ _ E R i P).
    + apply (morgage_nonneg _ _ _ _ _ E R (S i) P).
      cbn in Hi |- *. lia.
Qed.

Lemma default_balance_monotone_witness :
  (0 < LIVING_MONTH defaults)%nat
  /\ exists monthlyPayment : Q,
       getMonthlyPaymentToBank 900000 0.2 360 0.035
       = Ok monthlyPayment
       /\ morgage_at monthlyPayment 0.035 (900000 * (1 - 0.2)) 1
          <= morgage_at monthlyPayment 0.035 (900000 * (1 - 0.2)) 0.
Proof.
  split; [cbn; lia |].
  destruct default_balance_monotone as (mp & E & _ & _ & H).
  exists mp. split; [exact E |].
  apply (H 0%nat). cbn; lia.
Defined.



(** ** Initialisation, accessors and aggregations *)

Lemma init_run (K : constants) (monthlyPayment : Q) (g : globals) :
  getMonthlyPaymentToBank (TOTAL_HOUSE_PRICE K) (DOWNPAYMENT_PCT K)
    (MORGAGE_TERMS K) (ANNUAL_INTEREST_RATE K) = Ok monthlyPayment ->
  init K g = (Ok tt, after_init K monthlyPayment g).
Proof.
  intros E. unfold init. unfold bind at 1. rewrite initCostOfRental_run.
  unfold bind at 1. rewrite (initCostOfBank_run _ _ _ _ _ _ _ E).
  rewrite initPropertyTax_run. reflexivity.
Qed.

Lemma init_raise (K : constants) (e : exn) (g : globals) :
  getMonthlyPaymentToBank (TOTAL_HOUSE_PRICE K) (DOWNPAYMENT_PCT K)
    (MORGAGE_TERMS K) (ANNUAL_INTEREST_RATE K) = Raise e ->
  init K g
  = (Raise e,
     mkGlobals (costOfMonth g ++ rental_series K) (principleOfMonth g)
       (interestOfMonth g) (propertyTaxOfMonth g) (stdout g)).
Proof.
  intros E. unfold init. unfold bind at 1. rewrite initCostOfRental_run.
  unfold bind at 1. rewrite (initCostOfBank_raise _ _ _ _ _ _ _ E).
  reflexivity.
Qed.

Lemma index_lt (table : list Z) (month : nat) :
  (month < length table)%nat -> index table month = Ok (entry table month).
Proof.
  intros H. unfold index, entry.
  now rewrite (nth_error_nth' table 0%Z H).
Qed.

Lemma index_ge (table : list Z) (month : nat) :
  (length table <= month)%nat -> index table month = Raise IndexError.
Proof.
  intros H. unfold index.
  now rewrite (proj2 (nth_error_None table month) H).
Qed.

Lemma rental_total_loop (n : nat) :
  forall (a : nat) (cost : Z) (g : globals),
    (a + n <= length (costOfMonth g))%nat ->
    for_in (seq a n)
      (fun month cost =>
         rental <- getRentalCostByMonth month ;;
         let cost := (cost + rental)%Z in
         print (RentalRow month rental) ;;
         ret cost)
      cost g
    = (Ok (cost + sumZ (entry (costOfMonth g)) (seq a n))%Z,
       mkGlobals (costOfMonth g) (principleOfMonth g) (interestOfMonth g)
         (propertyTaxOfMonth g)
         (stdout g ++ map (rental_row g) (seq a n))).
Proof.
  induction n as [| n IH]; intros a cost g H.
  - simpl. unfold ret. rewrite app_nil_r, Z.add_0_r. now destruct g.
  - cbn [seq for_in]. unfold bind at 1. unfold bind at 1.
    unfold getRentalCostByMonth at 1. rewrite index_lt by lia.
    cbv zeta. unfold bind at 1, print at 1, ret at 1.
    rewrite IH by (cbn [costOfMonth]; lia).
    cbn [costOfMonth principleOfMonth interestOfMonth propertyTaxOfMonth
           stdout].
    f_equal.
    + f_equal. unfold sumZ. cbn [fold_right]. lia.
    + f_equal. rewrite <- app_assoc. reflexivity.
Qed.

Lemma getTotalRentalCost_run (termInMonth : nat) (g : globals) :
  (termInMonth <= length (costOfMonth g))%nat ->
  getTotalRentalCost termInMonth g
  = (Ok (sumZ (entry (costOfMonth g)) (seq 0 termInMonth)),
     mkGlobals (costOfMonth g) (principleOfMonth g) (interestOfMonth g)
       (propertyTaxOfMonth g)
       (stdout g ++ map (rental_row g) (seq 0 termInMonth))).
Proof.
  intros H. unfold getTotalRentalCost. cbv zeta.
  rewrite range_0, rental_total_loop by lia. reflexivity.
Qed.



Lemma series_lengths (K : constants) (monthlyPayment : Q) :
  length (rental_series K) = LIVING_MONTH K
  /\ length (principle_series K monthlyPayment) = LIVING_MONTH K
  /\ length (interest_series K monthlyPayment) = LIVING_MONTH K
  /\ length (tax_series K) = LIVING_MONTH K.
Proof.
  unfold rental_series, principle_series, interest_series, tax_series.
  now rewrite !length_map, !length_seq.
Qed.





Lemma nth_error_entry (table : list Z) (month : nat) :
  (month < length table)%nat ->
  nth_error table month = Some (entry table month).
Proof. intros H. unfold entry. now apply nth_error_nth'. Qed.
















(** The same by hand over two months of tables: [totalCost] is 8681 + 1/6
    and [pureCost] 6412 + 1/6, where truncated HOA and insurance would give
    8681 and 6412; the printed rows show the truncated values. *)
Example two_month_totals :
  exists (totalCost pureCost : Q) (g' : globals),
    getTotalHousingCost defaults 2 two_month_tables
    = (Ok (totalCost, pureCost), g')
    /\ totalCost == 52087 # 6
    /\ pureCost == 38473 # 6
    /\ sumZ (month_total_truncated defaults two_month_tables) (seq 0 2)
       = 8681%Z
    /\ stdout g'
       = [HousingRow 0 2100 1133 547 500 60 4340;
          HousingRow 1 2096 1136 548 501 60 4341].
Proof.
  exists (1250088000000 # 144000000), (923352000000 # 144000000).
  eexists. repeat split.
Qed.

(** Those two months of tables are the ones [init] builds from the source's
    constants when the term is cut to two months. *)
Example two_month_tables_built :
  init (mkConstants 2 0.025 3300 900000 0.035 360 0.2 500 60 0.0073) fresh
  = (Ok tt, two_month_tables).
Proof.
  destruct (getMonthlyPaymentToBank_returns 900000 0.2 360 0.035)
    as [mp E]; [reflexivity | lia |].
  destruct (default_first_months mp E) as (I0 & P0 & I1 & P1).
  rewrite (init_run (mkConstants 2 0.025 3300 900000 0.035 360 0.2 500 60
                       0.0073) mp fresh E).
  unfold after_init, two_month_tables, principle_series, interest_series.
  cbn [fresh costOfMonth principleOfMonth interestOfMonth propertyTaxOfMonth
         stdout app LIVING_MONTH ANNUAL_INTEREST_RATE TOTAL_HOUSE_PRICE
         DOWNPAYMENT_PCT seq map].
  rewrite I0, P0, I1, P1. reflexivity.
Qed.









(** * Further properties of the program *)

(** ** The aggregations over tables that are too short *)

Lemma for_in_app {A B : Type} (xs ys : list A) (body : A -> B -> M B) :
  forall (acc : B) (g : globals),
    for_in (xs ++ ys) body acc g
    = bind (for_in xs body acc) (for_in ys body) g.
Proof.
  induction xs as [| x xs IH]; intros acc g.
  - reflexivity.
  - cbn [app for_in]. unfold bind.
    destruct (body x acc g) as [[acc' | e] g']; [| reflexivity].
    rewrite IH. reflexivity.
Qed.

Lemma seq_split (n m : nat) :
  (n <= m)%nat -> seq 0 m = seq 0 n ++ seq n (m - n).
Proof.
  intros H. replace m with (n + (m - n))%nat at 1 by lia.
  now rewrite seq_app.
Qed.

(** [getTotalRentalCost] on any tables.  When the rental table covers the
    term it returns the sum of the entries of the term and prints one row
    per month; when the table is shorter it prints the rows of the months
    the table has and then raises [IndexError].  Either way the four tables
    are left as they were. *)
Theorem getTotalRentalCost_any_table (termInMonth : nat) (g : globals) :
  ((termInMonth <= length (costOfMonth g))%nat ->
   getTotalRentalCost termInMonth g
   = (Ok (sumZ (entry (costOfMonth g)) (seq 0 termInMonth)),
      mkGlobals (costOfMonth g) (principleOfMonth g) (interestOfMonth g)
        (propertyTaxOfMonth g)
        (stdout g ++ map (rental_row g) (seq 0 termInMonth))))
  /\ ((length (costOfMonth g) < termInMonth)%nat ->
      getTotalRentalCost termInMonth g
      = (Raise IndexError,
         mkGlobals (costOfMonth g) (principleOfMonth g) (interestOfMonth g)
           (propertyTaxOfMonth g)
           (stdout g
            ++ map (rental_row g) (seq 0 (length (costOfMonth g)))))).
Proof.
  split; [apply getTotalRentalCost_run |].
  intros H. unfold getTotalRentalCost. cbv zeta.
  rewrite range_0, (seq_split (length (costOfMonth g)) termInMonth) by lia.
  rewrite for_in_app. unfold bind at 1.
  rewrite rental_total_loop by lia.
  destruct (termInMonth - length (costOfMonth g))%nat as [| k] eqn:D;
    [lia |].
  cbn [seq for_in]. unfold bind at 1. unfold bind at 1.
  unfold getRentalCostByMonth at 1.
  cbn [costOfMonth]. rewrite index_ge by lia. reflexivity.
Qed.

Lemma getTotalRentalCost_any_table_witness :
  (0 < 1)%nat
  /\ getTotalRentalCost 1 fresh = (Raise IndexError, fresh).
Proof.
  split; [lia |].
  apply (getTotalRentalCost_any_table 1 fresh). cbn. lia.
Defined.



(** ** The payment and the schedule over the whole loan *)























(** ** Rent, assessed value, HOA and insurance *)


(** Where the rent overflows.  In binary64, if the carried rent is finite
    up to month [k] of the term and is not at month [k], [initCostOfRental]
    raises there, [OverflowError] on an infinity and [ValueError] on a NaN:
    the months before [k] are recorded on top of what the rental table held,
    and nothing else changes. *)
Theorem initCostOfRental_overflow
  (termInMonth k : nat) (inflationRate initialRent : float) (g : globals) :
  (k < termInMonth)%nat ->
  (forall i : nat,
      (i < k)%nat ->
      Binary64.is_finite (Binary64.rent_at inflationRate initialRent i)
      = true) ->
  Binary64.is_finite (Binary64.rent_at inflationRate initialRent k) = false ->
  let run :=
    Binary64.initCostOfRental termInMonth inflationRate initialRent g in
  fst run
  = Binary64.Raise
      (if PrimFloat.is_nan (Binary64.rent_at inflationRate initialRent k)
       then Binary64.ValueError else Binary64.OverflowError)
  /\ (exists entries : list Z,
         length entries = k
         /\ costOfMonth (snd run) = costOfMonth g ++ entries
         /\ forall i : nat,
              (i < k)%nat ->
              Binary64.int (Binary64.rent_at inflationRate initialRent i)
              = Binary64.Ok (nth i entries 0%Z))
  /\ principleOfMonth (snd run) = principleOfMonth g
  /\ interestOfMonth (snd run) = interestOfMonth g
  /\ propertyTaxOfMonth (snd run) = propertyTaxOfMonth g
  /\ stdout (snd run) = stdout g.
Proof.
  intros Hk F N run. subst run.
  rewrite (initCostOfRental64_raise _ _ _ _ g Hk F N).
  cbn [fst snd put_cost costOfMonth principleOfMonth interestOfMonth
         propertyTaxOfMonth stdout].
  split; [reflexivity |].
  split; [| repeat split].
  eexists. split; [| split; [reflexivity |]].
  - now rewrite length_map, length_seq.
  - intros i Hi.
    rewrite (nth_indep _ 0%Z
               (Binary64.recorded
                  (Binary64.rent_at inflationRate initialRent 0)))
      by (now rewrite length_map, length_seq).
    rewrite (map_nth (fun i =>
                        Binary64.recorded
                          (Binary64.rent_at inflationRate initialRent i))),
      seq_nth by assumption.
    apply int64_finite. apply (F i Hi).
Qed.

Lemma initCostOfRental_overflow_witness :
  (1 < 3)%nat
  /\ Binary64.is_finite (Binary64.rent_at 12 1e308 1) = false
  /\ fst (Binary64.initCostOfRental 3 12 1e308 fresh)
     = Binary64.Raise Binary64.OverflowError.
Proof.
  assert (Hk : (1 < 3)%nat) by lia.
  assert (F : forall i : nat,
             (i < 1)%nat ->
             Binary64.is_finite (Binary64.rent_at 12 1e308 i) = true).
  { intros [| i] Hi; [reflexivity | lia]. }
  split; [exact Hk |]. split; [reflexivity |].
  apply (initCostOfRental_overflow 3 1 12 1e308 fresh Hk F eq_refl).
Defined.

(** The cap on the assessed value: an inflation rate that is not below 0.02
    has no effect on the tax table, which is then the one built at 0.02. *)
Theorem property_tax_above_cap
  (termInMonth : nat) (total propertyTaxRate inflationRate : float)
  (g : globals) :
  (inflationRate <? 0.02)%float = false ->
  Binary64.initPropertyTax termInMonth total propertyTaxRate inflationRate g
  = Binary64.initPropertyTax termInMonth total propertyTaxRate 0.02 g.
Proof.
  intros H. unfold Binary64.initPropertyTax, Binary64.min. cbv zeta.
  rewrite H.
  change (0.02 <? 0.02)%float with false. reflexivity.
Qed.

Lemma property_tax_above_cap_witness :
  (0.025 <? 0.02)%float = false
  /\ Binary64.initPropertyTax 2 900000 0.0073 0.025 fresh
     = Binary64.initPropertyTax 2 900000 0.0073 0.02 fresh.
Proof.
  split; [reflexivity |].
  apply (property_tax_above_cap 2 900000 0.0073 0.025 fresh). reflexivity.
Defined.


(** ** Initialisation and the report *)

(** A successful [init] appends [LIVING_MONTH] entries to each of the four
    tables, whatever they held, so tables of equal length stay of equal
    length. *)
Theorem init_extends_tables (K : constants) (g g' : globals) :
  init K g = (Ok tt, g') ->
  length (costOfMonth g') = (length (costOfMonth g) + LIVING_MONTH K)%nat
  /\ length (principleOfMonth g')
     = (length (principleOfMonth g) + LIVING_MONTH K)%nat
  /\ length (interestOfMonth g')
     = (length (interestOfMonth g) + LIVING_MONTH K)%nat
  /\ length (propertyTaxOfMonth g')
     = (length (propertyTaxOfMonth g) + LIVING_MONTH K)%nat
  /\ firstn (length (costOfMonth g)) (costOfMonth g') = costOfMonth g
  /\ stdout g' = stdout g.
Proof.
  intros H.
  destruct (getMonthlyPaymentToBank (TOTAL_HOUSE_PRICE K) (DOWNPAYMENT_PCT K)
              (MORGAGE_TERMS K) (ANNUAL_INTEREST_RATE K)) as [mp | e] eqn:E.
  2: { rewrite (init_raise K e g E) in H. discriminate H. }
  rewrite (init_run K mp g E) in H. injection H as <-.
  destruct (series_lengths K mp) as (Lc & Lp & Li & Lt).
  unfold after_init.
  cbn [costOfMonth principleOfMonth interestOfMonth propertyTaxOfMonth stdout].
  rewrite !length_app, Lc, Lp, Li, Lt.
  repeat split.
  rewrite firstn_app, Nat.sub_diag, firstn_all. cbn [firstn].
  now rewrite app_nil_r.
Qed.

Lemma init_extends_tables_witness :
  init small_loan fresh
  = (Ok tt, mkGlobals [100; 100]%Z [597; 602]%Z [12; 6]%Z [1; 1]%Z [])
  /\ length [100; 100]%Z = (0 + 2)%nat.
Proof.
  split; [reflexivity |].
  apply (init_extends_tables small_loan fresh
           (mkGlobals [100; 100]%Z [597; 602]%Z [12; 6]%Z [1; 1]%Z [])
           eq_refl).
Defined.






